(** * numerox: model adapters ([numerox/model.py]) and utilities
    ([numerox/util.py])

    A shallow embedding of the two modules.  Python values are an inductive
    type, exceptions are an error monad, lists are lists, a [dict] is an
    association list in insertion order (the order [dict.items()] iterates
    in), a float is an IEEE binary64 value of [SpecFloat], a generator is a
    state with a [next] function. *)

From Stdlib Require Import ZArith Lia Ascii SpecFloat DecimalString.
From stdpp Require Import base decidable option list strings sorting.

Local Open Scope Z_scope.

(** ** Python runtime: exceptions and the error monad *)

Module Py.

Inductive exn : Type :=
| ValueError (msg : string)
| IndexError (msg : string)
| KeyError (key : string)
| ImportError (msg : string)
| TypeError (msg : string)
| AttributeError (msg : string)
| NameError (msg : string).

Inductive result (A : Type) : Type :=
| Ok (a : A)
| Raise (e : exn).
Arguments Ok {A} a.
Arguments Raise {A} e.

Definition bind {A B} (m : result A) (k : A -> result B) : result B :=
  match m with
  | Ok a => k a
  | Raise e => Raise e
  end.

Definition is_ok {A} (m : result A) : bool :=
  match m with Ok _ => true | Raise _ => false end.

Definition is_ValueError {A} (m : result A) : bool :=
  match m with Raise (ValueError _) => true | _ => false end.

Definition is_ImportError {A} (m : result A) : bool :=
  match m with Raise (ImportError _) => true | _ => false end.

(** [l[i]] for a list and an int: a negative index counts from the end,
    an index out of range raises IndexError. *)
Definition getitem {A} (l : list A) (i : Z) : result A :=
  let n := Z.of_nat (length l) in
  let j := if i <? 0 then i + n else i in
  if (j <? 0) || (n <=? j) then Raise (IndexError "list index out of range")
  else match l !! Z.to_nat j with
       | Some a => Ok a
       | None => Raise (IndexError "list index out of range")
       end.

(** [x in l] for a list of strings. *)
Definition contains (l : list string) (s : string) : bool :=
  existsb (String.eqb s) l.

(** [l.index(s)]: position of the first element equal to [s]. *)
Fixpoint index (l : list string) (s : string) : result Z :=
  match l with
  | [] => Raise (ValueError "x not in list")
  | a :: l' =>
      if String.eqb a s then Ok 0
      else bind (index l' s) (fun i => Ok (i + 1))
  end.

End Py.

Import Py.

#[global] Instance result_ret : MRet result := fun A a => Ok a.
#[global] Instance result_bind : MBind result := fun A B k m => Py.bind m k.

(** ** numerox/util.py: the tournament registry *)

Definition TOURNAMENT_NAMES : list string :=
  ["bernie"; "elizabeth"; "jordan"; "ken"; "charles"].

Definition tournament_int2str (tournament_int : Z) : result string :=
  if tournament_int <? 1 then
    Raise (ValueError "`tournament_int` must be greater than 0")
  else if tournament_int >? 5 then
    Raise (ValueError "`tournament_int` must be less than 6")
  else getitem TOURNAMENT_NAMES (tournament_int - 1).

Definition tournament_str2int (tournament_str : string) : result Z :=
  if negb (contains TOURNAMENT_NAMES tournament_str) then
    Raise (ValueError "`tournament_str` name not recognized")
  else i ← index TOURNAMENT_NAMES tournament_str; Ok (i + 1).

(** *** Generators

    [range(a, b)] is an iterator with a cursor; a generator function
    called returns a fresh generator object, which [next] advances.  A
    [for] loop over a generator calls [next] until StopIteration. *)

Record range_iter : Type := RangeIter { range_cur : Z; range_stop : Z }.

Definition range (start stop : Z) : range_iter := RangeIter start stop.

Definition range_next (r : range_iter) : option (Z * range_iter) :=
  if range_cur r <? range_stop r
  then Some (range_cur r, RangeIter (range_cur r + 1) (range_stop r))
  else None.

Inductive generator : Type :=
| GenRunning (r : range_iter)
| GenFinished.

Inductive gen_step (A : Type) : Type :=
| Yield (a : A) (g : generator)
| StopIteration
| GenRaise (e : exn).
Arguments Yield {A} a g.
Arguments StopIteration {A}.
Arguments GenRaise {A} e.

(** Calling [tournament_iter()] runs nothing: it creates the generator,
    whose [for] loop has not started. *)
Definition tournament_iter : generator := GenRunning (range 1 6).

(** One [next()] on the generator: the loop takes the next [t] of the
    range, and yields [(t, tournament_int2str(t))]. *)
Definition tournament_iter_next (g : generator) : gen_step (Z * string) :=
  match g with
  | GenFinished => StopIteration
  | GenRunning r =>
      match range_next r with
      | None => StopIteration
      | Some (t, r') =>
          match tournament_int2str t with
          | Ok name => Yield (t, name) (GenRunning r')
          | Raise e => GenRaise e
          end
      end
  end.

(** [list(g)]: calls [next] until the generator stops; [fuel] bounds the
    number of calls.  Returns the items, and the generator as it is left
    (exhausted), or [None] when the fuel did not suffice. *)
Fixpoint consume (fuel : nat) (g : generator)
  : option (result (list (Z * string)) * generator) :=
  match fuel with
  | O => None
  | S fuel' =>
      match tournament_iter_next g with
      | StopIteration => Some (Ok [], GenFinished)
      | GenRaise e => Some (Raise e, GenFinished)
      | Yield a g' =>
          match consume fuel' g' with
          | Some (Ok l, g'') => Some (Ok (a :: l), g'')
          | other => other
          end
      end
  end.

(** [g = tournament_iter(); first = list(g); again = list(g);
    second = list(tournament_iter())]: a full iteration, a further one
    over the same generator object, and one over a new call. *)
Definition iterate_twice (fuel : nat)
  : option (result (list (Z * string)) * result (list (Z * string))
            * result (list (Z * string))) :=
  let g := tournament_iter in
  match consume fuel g with
  | None => None
  | Some (first, g) =>
      match consume fuel g with
      | None => None
      | Some (again, _) =>
          match consume fuel tournament_iter with
          | None => None
          | Some (second, _) => Some (first, again, second)
          end
      end
  end.

(** The pairs of the registry, in ascending id order. *)
Definition tournament_pairs : list (Z * string) :=
  [(1, "bernie"); (2, "elizabeth"); (3, "jordan"); (4, "ken"); (5, "charles")].

(** ** Python and numpy values *)

(** Concrete numpy scalar types. *)
Inductive np_scalar : Type :=
| np_bool_
| np_int8 | np_int16 | np_int32 | np_int64
| np_uint8 | np_uint16 | np_uint32 | np_uint64
| np_float16 | np_float32 | np_float64 | np_longdouble
| np_complex64 | np_complex128 | np_clongdouble
| np_datetime64 | np_timedelta64
| np_object_ | np_bytes_ | np_str_ | np_void.

(** Abstract classes of numpy's scalar type tree. *)
Inductive np_abstract : Type :=
| np_generic | np_number | np_integer | np_signedinteger
| np_unsignedinteger | np_inexact | np_floating | np_complexfloating
| np_flexible | np_character.

Inductive np_class : Type :=
| Abstract (a : np_abstract)
| Scalar (s : np_scalar).

(** The type of a Python object: a builtin type, a numpy scalar class, or
    any other class (by name). *)
Inductive py_type : Type :=
| py_int | py_bool | py_float | py_complex | py_str | py_bytes
| py_class (name : string)
| np_type (c : np_class).

Inductive value : Type :=
| PyInt (n : Z)
| PyBool (b : bool)
| PyFloat (f : spec_float)
| PyComplex (re im : spec_float)
| PyStr (s : string)
| PyBytes (s : string)
| PyNone
| NpScalar (t : np_scalar) (raw : Z)
| PyObject (cls : string).

#[global] Instance np_scalar_eq_dec : EqDecision np_scalar.
Proof. solve_decision. Defined.
#[global] Instance np_abstract_eq_dec : EqDecision np_abstract.
Proof. solve_decision. Defined.
#[global] Instance np_class_eq_dec : EqDecision np_class.
Proof. solve_decision. Defined.

(** [type(x)] *)
Definition type_of (x : value) : py_type :=
  match x with
  | PyInt _ => py_int
  | PyBool _ => py_bool
  | PyFloat _ => py_float
  | PyComplex _ _ => py_complex
  | PyStr _ => py_str
  | PyBytes _ => py_bytes
  | PyNone => py_class "NoneType"
  | NpScalar t _ => np_type (Scalar t)
  | PyObject cls => py_class cls
  end.

(** *** numpy's scalar type tree and [np.issubdtype]

    numpy is a library the module calls; its class tree is the
    one of numpy's reference (Scalars, the hierarchy of type objects):
    [timedelta64] is a subclass of [signedinteger], [datetime64] and
    [bool_] are direct subclasses of [generic]. *)
Definition np_base (c : np_class) : option np_class :=
  match c with
  | Abstract np_generic => None
  | Abstract np_number => Some (Abstract np_generic)
  | Abstract np_integer => Some (Abstract np_number)
  | Abstract np_signedinteger => Some (Abstract np_integer)
  | Abstract np_unsignedinteger => Some (Abstract np_integer)
  | Abstract np_inexact => Some (Abstract np_number)
  | Abstract np_floating => Some (Abstract np_inexact)
  | Abstract np_complexfloating => Some (Abstract np_inexact)
  | Abstract np_flexible => Some (Abstract np_generic)
  | Abstract np_character => Some (Abstract np_flexible)
  | Scalar np_bool_ => Some (Abstract np_generic)
  | Scalar (np_int8 | np_int16 | np_int32 | np_int64) =>
      Some (Abstract np_signedinteger)
  | Scalar (np_uint8 | np_uint16 | np_uint32 | np_uint64) =>
      Some (Abstract np_unsignedinteger)
  | Scalar (np_float16 | np_float32 | np_float64 | np_longdouble) =>
      Some (Abstract np_floating)
  | Scalar (np_complex64 | np_complex128 | np_clongdouble) =>
      Some (Abstract np_complexfloating)
  | Scalar np_datetime64 => Some (Abstract np_generic)
  | Scalar np_timedelta64 => Some (Abstract np_signedinteger)
  | Scalar np_object_ => Some (Abstract np_generic)
  | Scalar (np_bytes_ | np_str_) => Some (Abstract np_character)
  | Scalar np_void => Some (Abstract np_flexible)
  end.

(** [issubclass(c1, c2)] inside the tree: [c2] is [c1] or one of its
    bases.  The tree is at most five classes deep. *)
Fixpoint np_issubclass_upto (depth : nat) (c1 c2 : np_class) : bool :=
  if decide (c1 = c2) then true
  else match depth with
       | O => false
       | S d => match np_base c1 with
                | Some b => np_issubclass_upto d b c2
                | None => false
                end
       end.

Definition np_issubclass (c1 c2 : np_class) : bool :=
  np_issubclass_upto 5 c1 c2.

(** [issubclass(t, np.generic)] for any type: no builtin type and no
    other class is a subclass of [np.generic]. *)
Definition issubclass_generic (t : py_type) : bool :=
  match t with
  | np_type c => np_issubclass c (Abstract np_generic)
  | _ => false
  end.

(** [np.dtype(t).type]: the numpy scalar type a type converts to.  [int]
    is [np.int_], the C long (int64 here; int32 on platforms with a 32-bit
    long, signed too); a class numpy does not know is [object_]. *)
Definition np_dtype_type (t : py_type) : np_class :=
  match t with
  | py_int => Scalar np_int64
  | py_bool => Scalar np_bool_
  | py_float => Scalar np_float64
  | py_complex => Scalar np_complex128
  | py_str => Scalar np_str_
  | py_bytes => Scalar np_bytes_
  | py_class _ => Scalar np_object_
  | np_type c => c
  end.

(** [np.issubdtype(arg1, arg2)]: an argument that is not a numpy scalar
    class is first converted with [np.dtype(arg).type]. *)
Definition np_issubdtype (arg1 arg2 : py_type) : bool :=
  let arg1' := if issubclass_generic arg1 then arg1
               else np_type (np_dtype_type arg1) in
  let arg2' := if issubclass_generic arg2 then arg2
               else np_type (np_dtype_type arg2) in
  match arg1', arg2' with
  | np_type c1, np_type c2 => np_issubclass c1 c2
  | _, _ => false
  end.

(** ** numerox/util.py: [isint] *)

Definition isint (x : value) : bool :=
  np_issubdtype (type_of x) (np_type (Abstract np_signedinteger)).



(** ** Strings, dicts, floats *)

Definition char_dquote : ascii := ascii_of_nat 34.
Definition char_backslash : ascii := ascii_of_nat 92.

(** [s[:-n]] on a string. *)
Definition str_slice_to_minus (n : nat) (s : string) : string :=
  String.substring 0 (String.length s - n) s.

(** [str(n)] for an int: its decimal digits. *)
Definition str_of_int (n : Z) : string :=
  NilZero.string_of_int (Z.to_int n).

(** A [dict] with string keys, as the list of its items in insertion
    order. *)
Definition dict : Type := list (string * value).

(** [d[k]] *)
Fixpoint dict_getitem (d : dict) (k : string) : result value :=
  match d with
  | [] => Raise (KeyError k)
  | (k', v) :: d' => if String.eqb k' k then Ok v else dict_getitem d' k
  end.

(** [d.get(k)] as an option, for statements about dicts. *)
Definition dict_lookup (d : dict) (k : string) : option value :=
  match dict_getitem d k with Ok v => Some v | Raise _ => None end.

(** Two dicts are equal ([==]) when they map the same keys to the same
    values; the insertion order plays no part. *)
Definition dict_same (d1 d2 : dict) : Prop :=
  forall k, dict_lookup d1 k = dict_lookup d2 k.

(** A dict holds each key once. *)
Definition dict_wf (d : dict) : Prop := NoDup (d.*1).

(** binary64 *)
Definition float : Type := spec_float.
Definition fmul (a b : float) : float := SFmul 53 1024 a b.
Definition float_half : float := S754_finite false 4503599627370496 (-53).
Definition float_one : float := S754_finite false 4503599627370496 (-52).

(** [np.ones(n)] and [c * a], a scalar times a 1-d array. *)
Definition np_ones (n : nat) : list float := replicate n float_one.
Definition np_scalar_mul (c : float) (a : list float) : list float :=
  map (fmul c) a.

(** A 2-d array as the list of its rows; [a[:, j]] takes column [j]. *)
Definition matrix : Type := list (list float).

Fixpoint np_column (a : matrix) (j : nat) : result (list float) :=
  match a with
  | [] => Ok []
  | r :: a' =>
      match r !! j with
      | None => Raise (IndexError "index is out of bounds for axis 1")
      | Some v => rest ← np_column a' j; Ok (v :: rest)
      end
  end.

(** *** [json.dumps(d, sort_keys=True)] *)

Definition hex_digit (n : nat) : ascii :=
  ascii_of_nat (if (n <? 10)%nat then 48 + n else 87 + n).

(** The escape of one character (json's ESCAPE_ASCII): the quote and the
    backslash, the short escapes, and [\u00xx] for what is not printable
    ASCII. *)
Definition json_escape_char (c : ascii) : string :=
  let n := nat_of_ascii c in
  if (n =? 34)%nat then String char_backslash (String char_dquote EmptyString)
  else if (n =? 92)%nat then String char_backslash (String char_backslash EmptyString)
  else if (n =? 10)%nat then String char_backslash "n"
  else if (n =? 13)%nat then String char_backslash "r"
  else if (n =? 9)%nat then String char_backslash "t"
  else if (n =? 12)%nat then String char_backslash "f"
  else if (n =? 8)%nat then String char_backslash "b"
  else if ((32 <=? n) && (n <=? 126))%nat then String c EmptyString
  else String char_backslash
         ("u00" +:+ String (hex_digit (n / 16))
                      (String (hex_digit (n mod 16)) EmptyString)).

Fixpoint json_escape (s : string) : string :=
  match s with
  | EmptyString => EmptyString
  | String c s' => json_escape_char c +:+ json_escape s'
  end.

Definition json_string (s : string) : string :=
  String char_dquote (json_escape s +:+ String char_dquote EmptyString).

(** Keys compare as Python strings do: by code point, left to right. *)
Definition key_le (a b : string * value) : Prop :=
  String.le a.1 b.1.

#[global] Instance key_le_dec a b : Decision (key_le a b).
Proof. unfold key_le. apply _. Defined.

(** [sorted(d.items())] (a stable merge sort, keys being distinct). *)
Definition sorted_items (d : dict) : list (string * value) :=
  merge_sort key_le d.

(** [sep.join(l)] *)
Fixpoint str_join (sep : string) (l : list string) : string :=
  match l with
  | [] => EmptyString
  | [a] => a
  | a :: l' => a +:+ sep +:+ str_join sep l'
  end.


(** *** What the interpreter provides

    [float.__repr__] (the shortest string that reads back as the float),
    [str] and the JSON encoder on objects other than None, bools, ints,
    floats and strs, the hash of a [str] (keyed per process) and the hash
    of a tuple (a function of the hashes of its elements) are services of
    the interpreter: the adapters use them as given. *)
Class Runtime : Type := {
  float_repr : float -> string;
  str_other : value -> string;
  json_other : value -> result string;
  hash_str : string -> Z;
  hash_tuple : list Z -> Z
}.

(** [hash(n)] for an int (CPython, 64-bit): the value modulo the prime
    [2^61 - 1] with the sign of [n], and never -1. *)
Definition hash_modulus : Z := 2 ^ 61 - 1.

Definition hash_int (n : Z) : Z :=
  let r := Z.sgn n * (Z.abs n mod hash_modulus) in
  if r =? -1 then -2 else r.

(** The elements the adapters put in a tuple to hash. *)
Inductive hashable : Type :=
| HInt (n : Z)
| HStr (s : string).

Section Interpreter.
Context {rt : Runtime}.

Definition py_hash (h : hashable) : Z :=
  match h with
  | HInt n => hash_int n
  | HStr s => hash_str s
  end.

(** [hash(tuple(h))] *)
Definition py_hash_tuple (h : list hashable) : Z :=
  hash_tuple (map py_hash h).

(** [str(v)] *)
Definition str (v : value) : string :=
  match v with
  | PyInt n => str_of_int n
  | PyBool true => "True"
  | PyBool false => "False"
  | PyStr s => s
  | PyNone => "None"
  | PyFloat f => float_repr f
  | _ => str_other v
  end.

Definition json_float (f : float) : string :=
  match f with
  | S754_nan => "NaN"
  | S754_infinity false => "Infinity"
  | S754_infinity true => "-Infinity"
  | _ => float_repr f
  end.

Definition json_value (v : value) : result string :=
  match v with
  | PyStr s => Ok (json_string s)
  | PyNone => Ok "null"
  | PyBool true => Ok "true"
  | PyBool false => Ok "false"
  | PyInt n => Ok (str_of_int n)
  | PyFloat f => Ok (json_float f)
  | _ => json_other v
  end.

Definition json_item (kv : string * value) : result string :=
  jv ← json_value kv.2; Ok (json_string kv.1 +:+ ": " +:+ jv).

(** [json.dumps(d, sort_keys=True)] for a dict with string keys. *)
Definition json_dumps_sorted (d : dict) : result string :=
  parts ← mapM json_item (sorted_items d);
  Ok ("{" +:+ str_join ", " parts +:+ "}").
End Interpreter.

(** ** The collaborators of the adapters *)

(** Modelled from the spec: the dataset class (numerox.data, not in this
    development's sources).  The spec gives it a feature matrix, a label
    vector, a per-row identifier sequence, a deterministic content hash and
    a length: a table of rows, of which [x], [y], [ids] and [len] are
    views. *)
Record row : Type := Row { row_id : string; row_x : list float; row_y : float }.

Record Data : Type := { df : list row }.

Definition Data_x (d : Data) : matrix := row_x <$> df d.
Definition Data_y (d : Data) : list float := row_y <$> df d.
Definition Data_ids (d : Data) : list string := row_id <$> df d.
Definition Data_len (d : Data) : nat := length (df d).

(** Modelled from the spec: [Data.hash()], an int that depends on the
    content of the dataset only. *)
Class DataHash : Type := Data_hash : Data -> Z.

(** The estimators of scikit-learn and xgboost, as the adapters build
    them. *)
Inductive estimator : Type :=
| LogisticRegression (C : value)
| ETC (criterion : string) (max_features max_depth n_estimators random_state n_jobs : value)
| RFC (criterion : string) (max_features max_depth n_estimators random_state n_jobs : value)
| XGBClassifier (learning_rate subsample max_depth n_estimators seed nthread : value)
| PCA (n_components : value)
| Pipeline (name1 : string) (step1 : estimator) (name2 : string) (step2 : estimator).

(** The libraries: whether xgboost imported ([HAS_XGBOOST], set when the
    module is loaded), and the estimator contract: [fit] trains on
    features and labels, [predict_proba] returns the per-class score
    matrix.  Both may raise. *)
Class Libraries : Type := {
  HAS_XGBOOST : bool;
  fitted : Type;
  est_fit : estimator -> matrix -> list float -> result fitted;
  est_predict_proba : fitted -> matrix -> result matrix
}.


(** ** numerox/model.py *)

Inductive adapter : Type :=
| Model | logistic | extratrees | randomforest | xgboost | logisticPCA | fifty.

(** [self.__class__.__name__] *)
Definition class_name (c : adapter) : string :=
  match c with
  | Model => "Model"
  | logistic => "logistic"
  | extratrees => "extratrees"
  | randomforest => "randomforest"
  | xgboost => "xgboost"
  | logisticPCA => "logisticPCA"
  | fifty => "fifty"
  end.

(** An instance: its class, and the attribute [p] when it has one. *)
Record instance : Type := Instance_ { cls : adapter; p : option dict }.

(** [self.p] *)
Definition attr_p (self : instance) : result dict :=
  match p self with
  | Some d => Ok d
  | None => Raise (AttributeError "object has no attribute 'p'")
  end.

Section Adapters.
Context {rt : Runtime} {dh : DataHash} {L : Libraries}.

(** [Model.hash] *)
Definition Model_hash (self : instance) (dfit dpre : Data) : result Z :=
  let h := [] in
  let h := h ++ [HInt (Data_hash dfit)] in
  let h := h ++ [HInt (Data_hash dpre)] in
  let h := h ++ [HStr (class_name (cls self))] in
  h ← match p self with
      | Some d => js ← json_dumps_sorted d; Ok (h ++ [HStr js])
      | None => Ok h
      end;
  Ok (py_hash_tuple h).

(** [Model.__repr__] *)
Definition Model_repr (self : instance) : string :=
  let msg := "" in
  let model := class_name (cls self) in
  match p self with
  | Some d =>
      if (length d =? 0)%nat then msg +:+ (model +:+ "()")
      else
        let msg := msg +:+ (model +:+ "(") in
        let msg := fold_left (fun msg '(name, value) =>
                      msg +:+ (name +:+ "=" +:+ str value +:+ ", ")) d msg in
        let msg := str_slice_to_minus 2 msg in
        msg +:+ ")"
  | None => msg +:+ (model +:+ "()")
  end.

(** The constructors. *)
Definition logistic_init (inverse_l2 : value) : result instance :=
  Ok (Instance_ logistic (Some [("inverse_l2", inverse_l2)])).

Definition extratrees_init (ntrees depth nfeatures seed : value) : result instance :=
  Ok (Instance_ extratrees
        (Some [("ntrees", ntrees); ("depth", depth);
               ("nfeatures", nfeatures); ("seed", seed)])).

Definition randomforest_init (ntrees depth max_features seed : value) : result instance :=
  Ok (Instance_ randomforest
        (Some [("ntrees", ntrees); ("depth", depth);
               ("max_features", max_features); ("seed", seed)])).

Definition xgboost_init (learning_rate subsample max_depth n_estimators seed : value)
  : result instance :=
  let self := Instance_ xgboost
        (Some [("learning_rate", learning_rate); ("subsample", subsample);
               ("max_depth", max_depth); ("n_estimators", n_estimators);
               ("seed", seed)]) in
  if negb HAS_XGBOOST then
    Raise (ImportError "You must install xgboost to use this model")
  else Ok self.

Definition logisticPCA_init (nfeatures inverse_l2 : value) : result instance :=
  Ok (Instance_ logisticPCA
        (Some [("inverse_l2", inverse_l2); ("nfeatures", nfeatures)])).

Definition fifty_init : result instance :=
  Ok (Instance_ fifty (Some [])).

(** What the estimator-backed adapters share: fit on [dfit], take the
    second column of [predict_proba] on [dpre], pair it with the ids. *)
Definition fit_then_predict (clf : estimator) (dfit dpre : Data)
  : result (list string * list float) :=
  m ← est_fit clf (Data_x dfit) (Data_y dfit);
  proba ← est_predict_proba m (Data_x dpre);
  yhat ← np_column proba 1;
  Ok (Data_ids dpre, yhat).

Definition logistic_fit_predict (self : instance) (dfit dpre : Data) :=
  d ← attr_p self;
  c ← dict_getitem d "inverse_l2";
  fit_then_predict (LogisticRegression c) dfit dpre.

Definition extratrees_fit_predict (self : instance) (dfit dpre : Data) :=
  d ← attr_p self;
  nfeatures ← dict_getitem d "nfeatures";
  depth ← dict_getitem d "depth";
  ntrees ← dict_getitem d "ntrees";
  seed ← dict_getitem d "seed";
  fit_then_predict (ETC "gini" nfeatures depth ntrees seed (PyInt (-1))) dfit dpre.

Definition randomforest_fit_predict (self : instance) (dfit dpre : Data) :=
  d ← attr_p self;
  max_features ← dict_getitem d "max_features";
  depth ← dict_getitem d "depth";
  ntrees ← dict_getitem d "ntrees";
  seed ← dict_getitem d "seed";
  fit_then_predict (RFC "gini" max_features depth ntrees seed (PyInt (-1))) dfit dpre.

Definition xgboost_fit_predict (self : instance) (dfit dpre : Data) :=
  if negb HAS_XGBOOST then
    Raise (NameError "name 'XGBClassifier' is not defined")
  else
    d ← attr_p self;
    learning_rate ← dict_getitem d "learning_rate";
    subsample ← dict_getitem d "subsample";
    max_depth ← dict_getitem d "max_depth";
    n_estimators ← dict_getitem d "n_estimators";
    seed ← dict_getitem d "seed";
    fit_then_predict
      (XGBClassifier learning_rate subsample max_depth n_estimators seed (PyInt (-1)))
      dfit dpre.

Definition logisticPCA_fit_predict (self : instance) (dfit dpre : Data) :=
  d ← attr_p self;
  nfeatures ← dict_getitem d "nfeatures";
  c ← dict_getitem d "inverse_l2";
  fit_then_predict
    (Pipeline "pca" (PCA nfeatures) "lr" (LogisticRegression c)) dfit dpre.

Definition fifty_fit_predict (self : instance) (dfit dpre : Data)
  : result (list string * list float) :=
  let yhat := np_scalar_mul float_half (np_ones (Data_len dpre)) in
  Ok (Data_ids dpre, yhat).

(** [self.fit_predict(dfit, dpre)], by the class of [self]. *)
Definition fit_predict (self : instance) (dfit dpre : Data)
  : result (list string * list float) :=
  match cls self with
  | Model => Raise (AttributeError "object has no attribute 'fit_predict'")
  | logistic => logistic_fit_predict self dfit dpre
  | extratrees => extratrees_fit_predict self dfit dpre
  | randomforest => randomforest_fit_predict self dfit dpre
  | xgboost => xgboost_fit_predict self dfit dpre
  | logisticPCA => logisticPCA_fit_predict self dfit dpre
  | fifty => fifty_fit_predict self dfit dpre
  end.

(** A caller: [m = xgboost(...); m.fit_predict(dfit, dpre)]. *)
Definition xgboost_construct_then_fit_predict
    (learning_rate subsample max_depth n_estimators seed : value)
    (dfit dpre : Data) : result (list string * list float) :=
  self ← xgboost_init learning_rate subsample max_depth n_estimators seed;
  fit_predict self dfit dpre.
End Adapters.

(** *** The rendering the specification describes, and the one in
    iteration order *)

Section Renderings.
Context {rt : Runtime}.

Definition render_item (kv : string * value) : string :=
  kv.1 +:+ "=" +:+ str kv.2.

Definition render (name : string) (items : list (string * value)) : string :=
  name +:+ "(" +:+ str_join ", " (render_item <$> items) +:+ ")".

(** What the loop of [__repr__] appends: every assignment followed by
    a comma and a space. *)
Definition appended (d : dict) : string :=
  foldr (fun kv rest => render_item kv +:+ ", " +:+ rest) "" d.

(** Class name, then the assignments with the names sorted. *)
Definition repr_sorted (self : instance) : string :=
  match p self with
  | Some d => render (class_name (cls self)) (sorted_items d)
  | None => class_name (cls self) +:+ "()"
  end.

(** Class name, then the assignments in the order of [p.items()]. *)
Definition repr_in_order (self : instance) : string :=
  match p self with
  | Some d => render (class_name (cls self)) d
  | None => class_name (cls self) +:+ "()"
  end.
End Renderings.

(** The parameter mappings of two instances are the same: both absent, or
    dicts with the same keys and values. *)
Definition params_wf (p : option dict) : Prop :=
  match p with
  | Some d => dict_wf d
  | None => True
  end.

Definition params_same (p1 p2 : option dict) : Prop :=
  match p1, p2 with
  | Some d1, Some d2 => dict_same d1 d2
  | None, None => True
  | _, _ => False
  end.

(** A content hash under which the empty dataset hashes to 0 and the
    others to [2^61 - 1]. *)
Definition two_valued_hash : DataHash :=
  fun d => match df d with [] => 0 | _ => 2 ^ 61 - 1 end.

Definition empty_rows : Data := {| df := [] |}.

(** The instances built with the default arguments that the properties
    below use. *)
Definition float_1e_4 : float := S754_finite false 7378697629483821 (-66).

Definition extratrees_default : instance :=
  Instance_ extratrees
    (Some [("ntrees", PyInt 100); ("depth", PyInt 3);
           ("nfeatures", PyInt 7); ("seed", PyInt 0)]).

Definition logisticPCA_default : instance :=
  Instance_ logisticPCA
    (Some [("inverse_l2", PyFloat float_1e_4); ("nfeatures", PyInt 10)]).

(** A runtime and libraries to run examples with: floats print as a fixed
    text, a string hashes to its length, a tuple to the sum of its
    elements' hashes; every estimator scores each row (0.5, 0.5). *)
Definition example_runtime : Runtime := {|
  float_repr := fun _ => "0.5";
  str_other := fun _ => "<object>";
  json_other := fun _ => Raise (TypeError "Object is not JSON serializable");
  hash_str := fun s => Z.of_nat (String.length s);
  hash_tuple := fun l => foldr Z.add 0 l
|}.

Definition example_data_hash : DataHash :=
  fun d => Z.of_nat (length (df d)).

Definition example_libraries (has_xgboost : bool) : Libraries := {|
  HAS_XGBOOST := has_xgboost;
  fitted := unit;
  est_fit := fun _ _ _ => Ok tt;
  est_predict_proba := fun _ X => Ok ((fun _ => [float_half; float_half]) <$> X)
|}.

Definition example_rows : Data :=
  {| df := [Row "n1" [float_one; float_half] float_one;
            Row "n2" [float_half; float_half] float_half;
            Row "n3" [float_one; float_one] float_one] |}.

(** ** numerox/util.py: [isstring] and [history] *)





(** A [pandas.DataFrame] built from a list of rows and the column
    names. *)
Record DataFrame : Type := {
  frame_columns : list string;
  frame_data : list (list value)
}.

Definition history : DataFrame :=
  let d :=
    [ [PyInt 1; PyInt 1; PyStr "December 1, 2015"];
      [PyInt 1; PyInt 51; PyStr "first live logloss"];
      [PyInt 1; PyInt 61; PyStr "first stake; $3000 prize pool"];
      [PyInt 1; PyInt 67; PyStr "the big burn"];
      [PyInt 1; PyInt 78; PyStr "stake prize pool increased to $6000"];
      [PyInt 1; PyInt 81; PyStr "originality no longer a staking requirement"];
      [PyInt 1; PyInt 85; PyStr "rounds resolve on Saturdays instead of Mondays"];
      [PyInt 1; PyInt 94; PyStr "main tournament dropped; staking adds nmr prizes"];
      [PyInt 1; PyInt 100; PyStr "rank corr > 0.1 with example predictions"];
      [PyInt 1; PyInt 101; PyStr "corr > 0.1 with example predictions"];
      [PyInt 1; PyInt 102; PyStr "logloss benchmark 0.693; corr>0.2; [0.3, 0.7]"] ] in
  let columns := ["tournament"; "round"; "comment"] in
  {| frame_columns := columns; frame_data := d |}.

(** [df[name]]: the values of a column, row by row ([None] when the
    frame has no such column or a row is too short). *)
Fixpoint column_position (columns : list string) (name : string) : option nat :=
  match columns with
  | [] => None
  | c :: columns' =>
      if String.eqb c name then Some O
      else S <$> column_position columns' name
  end.

Definition frame_column (f : DataFrame) (name : string) : option (list value) :=
  match column_position (frame_columns f) name with
  | None => None
  | Some j => mapM (fun r => r !! j) (frame_data f)
  end.

(** The int of a value that is one. *)
Definition as_int (v : value) : option Z :=
  match v with PyInt n => Some n | _ => None end.

(** ** Kinds of exceptions, parameters the adapters read *)

Definition is_KeyError {A} (m : result A) : bool :=
  match m with Raise (KeyError _) => true | _ => false end.

Definition is_AttributeError {A} (m : result A) : bool :=
  match m with Raise (AttributeError _) => true | _ => false end.

Definition is_IndexError {A} (m : result A) : bool :=
  match m with Raise (IndexError _) => true | _ => false end.

(** The values the JSON encoder writes by itself. *)
Definition json_basic (v : value) : bool :=
  match v with
  | PyNone | PyBool _ | PyInt _ | PyFloat _ | PyStr _ => true
  | _ => false
  end.

(** The keys of [self.p] that [fit_predict] reads, in the order in which
    it reads them. *)
Definition keys_read (c : adapter) : list string :=
  match c with
  | Model => []
  | logistic => ["inverse_l2"]
  | extratrees => ["nfeatures"; "depth"; "ntrees"; "seed"]
  | randomforest => ["max_features"; "depth"; "ntrees"; "seed"]
  | xgboost => ["learning_rate"; "subsample"; "max_depth"; "n_estimators"; "seed"]
  | logisticPCA => ["nfeatures"; "inverse_l2"]
  | fifty => []
  end.

(** Libraries whose estimators fail to fit, and libraries whose score
    matrix has a single column (a fit on labels of one class). *)
Definition failing_libraries (e : exn) : Libraries := {|
  HAS_XGBOOST := true;
  fitted := unit;
  est_fit := fun _ _ _ => Raise e;
  est_predict_proba := fun _ X => Ok ((fun _ => [float_half; float_half]) <$> X)
|}.

Definition one_class_libraries : Libraries := {|
  HAS_XGBOOST := true;
  fitted := unit;
  est_fit := fun _ _ _ => Ok tt;
  est_predict_proba := fun _ X => Ok ((fun _ => [float_one]) <$> X)
|}.

(** The rows of [example_rows] under other ids, and without labels. *)
Definition example_rows_renamed : Data :=
  {| df := [Row "a" [float_one; float_half] float_one;
            Row "b" [float_half; float_half] float_half;
            Row "c" [float_one; float_one] float_one] |}.

Definition example_rows_unlabelled : Data :=
  {| df := [Row "n1" [float_one; float_half] S754_nan;
            Row "n2" [float_half; float_half] S754_nan;
            Row "n3" [float_one; float_one] S754_nan] |}.

(** * Properties *)

(** Unfolds the monad of [result] down to its [match]. *)
Ltac py_unfold :=
  unfold mbind, mret, result_bind, result_ret, Py.bind in *.

(** ** The tournament registry *)

Lemma id_in_range_cases (t : Z) :
  1 <= t <= 5 -> t = 1 \/ t = 2 \/ t = 3 \/ t = 4 \/ t = 5.
Proof. lia. Qed.

Lemma name_registered_cases (s : string) :
  s ∈ TOURNAMENT_NAMES ->
  s = "bernie" \/ s = "elizabeth" \/ s = "jordan" \/ s = "ken" \/ s = "charles".
Proof.
  unfold TOURNAMENT_NAMES. rewrite !elem_of_cons, elem_of_nil. tauto.
Qed.

Lemma contains_spec (l : list string) (s : string) :
  contains l s = true <-> s ∈ l.
Proof.
  unfold contains. rewrite existsb_exists. split.
  - intros (a & Ha & Heq). apply String.eqb_eq in Heq. subst a.
    by apply list_elem_of_In.
  - intros Hs. exists s. split; [by apply list_elem_of_In | apply String.eqb_refl].
Qed.

Lemma index_is_ok (l : list string) (s : string) :
  s ∈ l -> is_ok (index l s) = true.
Proof.
  induction l as [|a l IH]; intros Hs.
  - by apply elem_of_nil in Hs.
  - simpl. destruct (String.eqb a s) eqn:E; [done|].
    apply elem_of_cons in Hs as [->|Hs].
    + by rewrite String.eqb_refl in E.
    + specialize (IH Hs). by destruct (index l s).
Qed.

(** C1: on the five registered names, [tournament_str2int] then
    [tournament_int2str] gives the name back; on the ids 1..5,
    [tournament_int2str] then [tournament_str2int] gives the id back; the
    ids of names are in 1..5 and the names of ids are registered. *)
Theorem tournament_roundtrip (name : string) (t : Z) :
  (name ∈ TOURNAMENT_NAMES ->
     exists t', tournament_str2int name = Ok t' /\ 1 <= t' <= 5 /\
                tournament_int2str t' = Ok name) /\
  (1 <= t <= 5 ->
     exists name', tournament_int2str t = Ok name' /\
                   name' ∈ TOURNAMENT_NAMES /\
                   tournament_str2int name' = Ok t).
Proof.
  split.
  - intros H. apply name_registered_cases in H.
    destruct H as [-> | [-> | [-> | [-> | ->]]]];
      [exists 1 | exists 2 | exists 3 | exists 4 | exists 5];
      (split; [reflexivity | split; [lia | reflexivity]]).
  - intros H. apply id_in_range_cases in H.
    destruct H as [-> | [-> | [-> | [-> | ->]]]];
      [exists "bernie" | exists "elizabeth" | exists "jordan"
       | exists "ken" | exists "charles"];
      (split; [reflexivity | split; [| reflexivity]]);
      unfold TOURNAMENT_NAMES; rewrite !elem_of_cons; tauto.
Qed.

Lemma tournament_roundtrip_witness :
  (exists t', tournament_str2int "ken" = Ok t' /\ 1 <= t' <= 5 /\
              tournament_int2str t' = Ok "ken") /\
  (exists name', tournament_int2str 2 = Ok name' /\
                 name' ∈ TOURNAMENT_NAMES /\
                 tournament_str2int name' = Ok 2).
Proof.
  destruct (tournament_roundtrip "ken" 2) as [H1 H2]. split.
  - apply H1. unfold TOURNAMENT_NAMES. rewrite !elem_of_cons. tauto.
  - apply H2. lia.
Defined.

(** C2: [tournament_int2str] raises ValueError exactly when the int is
    outside [1,5] (so for 0 and for 6) and returns otherwise;
    [tournament_str2int] raises ValueError exactly when the string is not
    one of the five names and returns otherwise. *)
Theorem tournament_errors (t : Z) (s : string) :
  (is_ValueError (tournament_int2str t) = true <-> t < 1 \/ 5 < t) /\
  (is_ok (tournament_int2str t) = true <-> 1 <= t <= 5) /\
  is_ValueError (tournament_int2str 0) = true /\
  is_ValueError (tournament_int2str 6) = true /\
  (is_ValueError (tournament_str2int s) = true <-> s ∉ TOURNAMENT_NAMES) /\
  (is_ok (tournament_str2int s) = true <-> s ∈ TOURNAMENT_NAMES).
Proof.
  assert (Hint : (1 <= t <= 5 -> is_ok (tournament_int2str t) = true) /\
                 (t < 1 \/ 5 < t -> is_ValueError (tournament_int2str t) = true)).
  { split.
    - intros H. apply id_in_range_cases in H.
      by destruct H as [-> | [-> | [-> | [-> | ->]]]].
    - intros H. unfold tournament_int2str.
      destruct (t <? 1) eqn:E1; [done|].
      destruct (t >? 5) eqn:E2; [done|]. lia. }
  destruct Hint as [Hin Hout].
  assert (Hstr : (s ∈ TOURNAMENT_NAMES -> is_ok (tournament_str2int s) = true) /\
                 (s ∉ TOURNAMENT_NAMES -> is_ValueError (tournament_str2int s) = true)).
  { split; intros H; unfold tournament_str2int.
    - apply contains_spec in H as Hc. rewrite Hc.
      apply index_is_ok in H. py_unfold.
      by destruct (index TOURNAMENT_NAMES s).
    - destruct (contains TOURNAMENT_NAMES s) eqn:Hc; [|done].
      by apply contains_spec in Hc. }
  destruct Hstr as [Hsin Hsout].
  split; [|split; [|split; [done|split; [done|split]]]]; split; intros H.
  - destruct (decide (1 <= t <= 5)) as [Hr|Hr]; [|lia].
    apply Hin in Hr. by destruct (tournament_int2str t) as [|[]].
  - by apply Hout.
  - destruct (decide (1 <= t <= 5)) as [Hr|Hr]; [done|].
    assert (Hv : is_ValueError (tournament_int2str t) = true) by (apply Hout; lia).
    by destruct (tournament_int2str t) as [|[]].
  - by apply Hin.
  - intros Hs. apply Hsin in Hs.
    by destruct (tournament_str2int s) as [|[]].
  - by apply Hsout.
  - destruct (decide (s ∈ TOURNAMENT_NAMES)) as [Hs|Hs]; [done|].
    apply Hsout in Hs. by destruct (tournament_str2int s) as [|[]].
  - by apply Hsin.
Qed.

(** The generator left behind by a full iteration yields nothing more. *)
Lemma consume_finished (k : nat) :
  consume (S k) GenFinished = Some (Ok [], GenFinished).
Proof. reflexivity. Qed.

(** C3: iterating [tournament_iter()] yields (1, bernie), (2, elizabeth),
    (3, jordan), (4, ken), (5, charles), in ascending id order, and then
    stops; the generator object itself is then exhausted, and a second
    call of [tournament_iter()] yields the same five pairs again. *)
Theorem tournament_iter_pairs (k : nat) :
  consume (6 + k) tournament_iter = Some (Ok tournament_pairs, GenFinished) /\
  iterate_twice (6 + k) = Some (Ok tournament_pairs, Ok [], Ok tournament_pairs) /\
  tournament_pairs.*1 = [1; 2; 3; 4; 5].
Proof.
  assert (H : consume (6 + k) tournament_iter
              = Some (Ok tournament_pairs, GenFinished)) by reflexivity.
  split; [exact H|]. split; [|reflexivity].
  unfold iterate_twice. rewrite H.
  change (6 + k)%nat with (S (5 + k)).
  by rewrite consume_finished.
Qed.

(** The successive [next()] calls, one by one. *)
Lemma tournament_iter_steps :
  tournament_iter_next tournament_iter
    = Yield (1, "bernie") (GenRunning (range 2 6)) /\
  tournament_iter_next (GenRunning (range 2 6))
    = Yield (2, "elizabeth") (GenRunning (range 3 6)) /\
  tournament_iter_next (GenRunning (range 3 6))
    = Yield (3, "jordan") (GenRunning (range 4 6)) /\
  tournament_iter_next (GenRunning (range 4 6))
    = Yield (4, "ken") (GenRunning (range 5 6)) /\
  tournament_iter_next (GenRunning (range 5 6))
    = Yield (5, "charles") (GenRunning (range 6 6)) /\
  tournament_iter_next (GenRunning (range 6 6)) = StopIteration.
Proof. repeat split. Qed.

(** C10: once both bounds checks have passed, the index
    [tournament_int - 1] is within the five-element list, the lookup
    succeeds, and the function returns one of the five names. *)
Theorem tournament_int2str_index_in_bounds (t : Z) :
  1 <= t <= 5 ->
  0 <= t - 1 < Z.of_nat (length TOURNAMENT_NAMES) /\
  exists name, getitem TOURNAMENT_NAMES (t - 1) = Ok name /\
               name ∈ TOURNAMENT_NAMES /\
               tournament_int2str t = Ok name.
Proof.
  intros H. split; [simpl; lia|].
  apply id_in_range_cases in H.
  destruct H as [-> | [-> | [-> | [-> | ->]]]];
    [exists "bernie" | exists "elizabeth" | exists "jordan"
     | exists "ken" | exists "charles"];
    (split; [reflexivity | split; [| reflexivity]]);
    unfold TOURNAMENT_NAMES; rewrite !elem_of_cons; tauto.
Qed.

Lemma tournament_int2str_index_in_bounds_witness :
  0 <= 3 - 1 < Z.of_nat (length TOURNAMENT_NAMES) /\
  exists name, getitem TOURNAMENT_NAMES (3 - 1) = Ok name /\
               name ∈ TOURNAMENT_NAMES /\
               tournament_int2str 3 = Ok name.
Proof. apply (tournament_int2str_index_in_bounds 3). lia. Defined.

(** ** The adapters *)

Lemma fmul_half_one : fmul float_half float_one = float_half.
Proof. reflexivity. Qed.

Lemma half_times_ones (n : nat) :
  np_scalar_mul float_half (np_ones n) = replicate n float_half.
Proof.
  unfold np_scalar_mul, np_ones.
  induction n as [|n IH]; [reflexivity|].
  simpl replicate. rewrite map_cons, IH. by rewrite fmul_half_one.
Qed.

(** C4: the constant-baseline adapter returns, for every fit dataset and
    every predict dataset, one prediction per row of the predict dataset,
    each equal to 0.5 exactly. *)
Theorem fifty_predicts_half (L : Libraries) (params : option dict) (dfit dpre : Data) :
  fit_predict (Instance_ fifty params) dfit dpre
    = Ok (Data_ids dpre, replicate (Data_len dpre) float_half) /\
  Forall (fun yhat_i => yhat_i = float_half) (replicate (Data_len dpre) float_half).
Proof.
  split.
  - unfold fit_predict, fifty_fit_predict. simpl. by rewrite half_times_ones.
  - apply Forall_forall. intros y Hy.
    by apply elem_of_replicate in Hy as [-> _].
Qed.


Lemma np_column_lookup (a : matrix) (j : nat) (col : list float) (i : nat) (r : list float) :
  np_column a j = Ok col -> a !! i = Some r -> col !! i = r !! j.
Proof.
  revert col i. induction a as [|r0 a IH]; intros col i H Hi; [done|].
  simpl in H. destruct (r0 !! j) as [v|] eqn:Ev; [|discriminate]. py_unfold.
  destruct (np_column a j) as [rest|]; [|discriminate].
  injection H as <-. destruct i as [|i]; simpl in *.
  - injection Hi as <-. by rewrite Ev.
  - by apply IH.
Qed.

Lemma Data_views_length (d : Data) :
  length (Data_ids d) = Data_len d /\ length (Data_x d) = Data_len d.
Proof. unfold Data_ids, Data_x, Data_len. by rewrite !length_fmap. Qed.


(** The predictions of an estimator-backed adapter are the second column
    of the score matrix, row by row. *)
Lemma fit_then_predict_scores (L : Libraries) (clf : estimator)
      (dfit dpre : Data) (ids : list string) (yhat : list float) :
  fit_then_predict clf dfit dpre = Ok (ids, yhat) ->
  exists m proba,
    est_fit clf (Data_x dfit) (Data_y dfit) = Ok m /\
    est_predict_proba m (Data_x dpre) = Ok proba /\
    forall i scores, proba !! i = Some scores -> yhat !! i = scores !! 1%nat.
Proof.
  intros H. unfold fit_then_predict in H. py_unfold.
  destruct (est_fit clf (Data_x dfit) (Data_y dfit)) as [m|]; [|discriminate].
  destruct (est_predict_proba m (Data_x dpre)) as [proba|] eqn:Ep; [|discriminate].
  destruct (np_column proba 1) as [col|] eqn:Ec; [|discriminate].
  injection H as <- <-. exists m, proba. repeat split; [done|].
  intros i scores Hi. by eapply np_column_lookup.
Qed.

(** Peels the dict lookups that precede the call of the estimator. *)
Ltac peel_lookups H :=
  py_unfold;
  repeat match type of H with
         | match ?m with Ok _ => _ | Raise _ => _ end = Ok _ =>
             let E := fresh "E" in destruct m eqn:E; [|discriminate H]
         end.




(** C9: the constructor of the gradient-boosted adapter raises
    ImportError, with the message to install xgboost, when the library
    did not import, and returns the instance when it did; a caller that
    constructs the adapter and then calls [fit_predict] fails at the
    construction, before [fit_predict] runs. *)
Theorem xgboost_init_needs_library (L : Libraries)
      (learning_rate subsample max_depth n_estimators seed : value)
      (dfit dpre : Data) :
  let self := Instance_ xgboost
                (Some [("learning_rate", learning_rate); ("subsample", subsample);
                       ("max_depth", max_depth); ("n_estimators", n_estimators);
                       ("seed", seed)]) in
  xgboost_init learning_rate subsample max_depth n_estimators seed
  = (if HAS_XGBOOST then Ok self
     else Raise (ImportError "You must install xgboost to use this model")) /\
  xgboost_construct_then_fit_predict
    learning_rate subsample max_depth n_estimators seed dfit dpre
  = (if HAS_XGBOOST then fit_predict self dfit dpre
     else Raise (ImportError "You must install xgboost to use this model")).
Proof.
  unfold xgboost_construct_then_fit_predict, xgboost_init. py_unfold.
  by destruct HAS_XGBOOST.
Qed.

Lemma xgboost_init_examples :
  is_ImportError (@xgboost_init (example_libraries false)
                    (PyInt 1) (PyInt 1) (PyInt 5) (PyInt 5) (PyInt 0)) = true /\
  is_ok (@xgboost_init (example_libraries true)
           (PyInt 1) (PyInt 1) (PyInt 5) (PyInt 5) (PyInt 0)) = true.
Proof. split; reflexivity. Qed.

(** ** [isint] *)

(** The examples of the docstring. *)
Lemma isint_docstring_examples :
  isint (PyInt 1) = true /\
  isint (PyFloat (S754_finite false 4953959590107546 (-52))) = false /\
  isint (PyBool true) = false /\
  isint (PyComplex (S754_zero false) float_one) = false /\
  isint (PyStr "a") = false.
Proof. repeat split. Qed.

(** The table of the docstring. *)
Lemma isint_docstring_table (raw : Z) :
  isint (PyInt raw) = true /\
  isint (NpScalar np_int32 raw) = true /\
  isint (NpScalar np_int64 raw) = true /\
  (forall f, isint (PyFloat f) = false) /\
  isint (NpScalar np_float32 raw) = false /\
  isint (NpScalar np_float64 raw) = false /\
  (forall re im, isint (PyComplex re im) = false) /\
  (forall s, isint (PyStr s) = false) /\
  (forall b, isint (PyBool b) = false).
Proof. repeat split. Qed.



(** ** [Model.__repr__] *)

Section StringFacts.
Implicit Types s t u : string.

Lemma str_app_nil_l s : "" +:+ s = s.
Proof. reflexivity. Qed.

Lemma str_app_cons a s t : String a s +:+ t = String a (s +:+ t).
Proof. reflexivity. Qed.

Lemma str_app_nil_r s : s +:+ "" = s.
Proof. induction s as [|a s IH]; [done|]. by rewrite str_app_cons, IH. Qed.

Lemma str_app_assoc s t u : (s +:+ t) +:+ u = s +:+ (t +:+ u).
Proof.
  induction s as [|a s IH]; [done|]. by rewrite !str_app_cons, IH.
Qed.

Lemma str_length_app s t :
  String.length (s +:+ t) = (String.length s + String.length t)%nat.
Proof.
  induction s as [|a s IH]; [done|]. rewrite str_app_cons. simpl. by rewrite IH.
Qed.

Lemma substring_prefix s t :
  String.substring 0 (String.length s) (s +:+ t) = s.
Proof.
  induction s as [|a s IH].
  - rewrite str_app_nil_l. by destruct t.
  - rewrite str_app_cons. simpl. by rewrite IH.
Qed.

(** [(s + t)[:-len(t)] == s] *)
Lemma str_slice_drops_suffix s t :
  str_slice_to_minus (String.length t) (s +:+ t) = s.
Proof.
  unfold str_slice_to_minus. rewrite str_length_app.
  replace (String.length s + String.length t - String.length t)%nat
    with (String.length s) by lia.
  apply substring_prefix.
Qed.
End StringFacts.

Section Repr.
Context {rt : Runtime}.

Lemma repr_loop (d : dict) (msg : string) :
  fold_left (fun msg '(name, value) =>
               msg +:+ (name +:+ "=" +:+ str value +:+ ", ")) d msg
  = msg +:+ appended d.
Proof.
  revert msg. induction d as [|[name value] d IH]; intros msg; simpl.
  - by rewrite str_app_nil_r.
  - rewrite IH. unfold render_item. simpl.
    by rewrite !str_app_assoc.
Qed.

Lemma appended_join (d : dict) :
  d <> [] -> appended d = str_join ", " (render_item <$> d) +:+ ", ".
Proof.
  induction d as [|kv d IH]; [done|]. intros _.
  destruct d as [|kv' d].
  - simpl. by rewrite str_app_nil_r.
  - change (appended (kv :: kv' :: d))
      with (render_item kv +:+ ", " +:+ appended (kv' :: d)).
    rewrite IH by done.
    change (str_join ", " (render_item <$> kv :: kv' :: d))
      with (render_item kv +:+ ", " +:+ str_join ", " (render_item <$> kv' :: d)).
    by rewrite !str_app_assoc.
Qed.
End Repr.

(** C8, as stated, fails: the extra-trees adapter built with its default
    arguments prints its parameters as the dict holds them, ntrees first,
    not in sorted order. *)
Lemma repr_not_sorted_counterexample :
  @Model_repr example_runtime extratrees_default
    = "extratrees(ntrees=100, depth=3, nfeatures=7, seed=0)" /\
  @repr_sorted example_runtime extratrees_default
    = "extratrees(depth=3, nfeatures=7, ntrees=100, seed=0)" /\
  @Model_repr example_runtime extratrees_default
    <> @repr_sorted example_runtime extratrees_default.
Proof. split; [reflexivity|]. split; [reflexivity|]. discriminate. Qed.

(** The same holds under every runtime: the parameters are ints, and the
    constructor called with the default arguments builds this instance. *)
Lemma repr_extratrees_default (rt : Runtime) :
  extratrees_init (PyInt 100) (PyInt 3) (PyInt 7) (PyInt 0)
    = Ok extratrees_default /\
  Model_repr extratrees_default
    = "extratrees(ntrees=100, depth=3, nfeatures=7, seed=0)" /\
  repr_sorted extratrees_default
    = "extratrees(depth=3, nfeatures=7, ntrees=100, seed=0)".
Proof. repeat split. Qed.

(** C8, amended: [__repr__] renders the class name followed by the
    parameter assignments, separated by a comma and a space, in the order
    in which the parameter dict iterates (its insertion order); with no
    parameters, or no parameter dict, it renders just `ClassName()`. *)
Theorem repr_in_iteration_order (rt : Runtime) (self : instance) (c : adapter) :
  Model_repr self = repr_in_order self /\
  Model_repr (Instance_ c (Some [])) = class_name c +:+ "()" /\
  Model_repr (Instance_ c None) = class_name c +:+ "()".
Proof.
  split; [|done].
  unfold Model_repr, repr_in_order, render.
  destruct (p self) as [d|]; [|done].
  destruct d as [|kv d]; [done|].
  change (length (kv :: d) =? 0)%nat with false. cbv iota.
  rewrite !str_app_nil_l, repr_loop, appended_join by done.
  rewrite <- !str_app_assoc.
  change ", " with (String "," (String " " "")) at 2.
  rewrite (str_slice_drops_suffix _ (String "," (String " " ""))).
  by rewrite !str_app_assoc.
Qed.

(** An adapter whose dict was filled in sorted order prints sorted. *)
Lemma repr_logisticPCA_default :
  @Model_repr example_runtime logisticPCA_default
    = "logisticPCA(inverse_l2=0.5, nfeatures=10)" /\
  @repr_sorted example_runtime logisticPCA_default
    = @Model_repr example_runtime logisticPCA_default.
Proof. split; reflexivity. Qed.

(** ** [Model.hash] *)

Section DictFacts.
Implicit Types d : dict.

Lemma dict_lookup_cons d k' v' k :
  dict_lookup ((k', v') :: d) k
  = if String.eqb k' k then Some v' else dict_lookup d k.
Proof. unfold dict_lookup. simpl. by destruct (String.eqb k' k). Qed.

(** With distinct keys, [d[k]] is [v] exactly when [(k, v)] is an item. *)
Lemma dict_lookup_item d k v :
  dict_wf d -> (k, v) ∈ d <-> dict_lookup d k = Some v.
Proof.
  unfold dict_wf. induction d as [|[k' v'] d IH]; intros Hwf.
  - split; [by intros ?%elem_of_nil | done].
  - rewrite fmap_cons in Hwf. apply NoDup_cons in Hwf as [Hk' Hwf].
    simpl in Hk'. rewrite dict_lookup_cons, elem_of_cons.
    destruct (String.eqb k' k) eqn:E.
    + apply String.eqb_eq in E. subst k'. split.
      * intros [Heq|Hin]; [congruence|].
        exfalso. apply Hk'. apply list_elem_of_fmap. by exists (k, v).
      * intros [= ->]. by left.
    + apply String.eqb_neq in E. rewrite <- (IH Hwf). split.
      * intros [Heq|Hin]; [congruence|done].
      * by right.
Qed.

Lemma dict_wf_NoDup d : dict_wf d -> NoDup d.
Proof. apply NoDup_fmap_1. Qed.

(** Equal dicts hold the same items, in some order. *)
Lemma dict_same_Permutation d1 d2 :
  dict_wf d1 -> dict_wf d2 -> dict_same d1 d2 -> d1 ≡ₚ d2.
Proof.
  intros H1 H2 Hsame.
  apply NoDup_Permutation; [by apply dict_wf_NoDup..|].
  intros [k v]. by rewrite !dict_lookup_item, Hsame.
Qed.

#[local] Instance key_le_trans : Transitive key_le.
Proof. intros a b c. unfold key_le. apply transitivity. Qed.

#[local] Instance key_le_total : Total key_le.
Proof. intros a b. unfold key_le. apply total, _. Qed.

(** Sorting by key forgets the insertion order. *)
Lemma sorted_items_Permutation d1 d2 :
  dict_wf d1 -> d1 ≡ₚ d2 -> sorted_items d1 = sorted_items d2.
Proof.
  intros Hwf Hperm. unfold sorted_items.
  apply (Sorted_unique_strong key_le).
  - intros [k1 v1] [k2 v2] Hin1 Hin2 Hle1 Hle2.
    rewrite merge_sort_Permutation in Hin1, Hin2.
    rewrite <- Hperm in Hin2. unfold key_le in *. simpl in *.
    assert (k1 = k2) as <- by (by apply (anti_symm String.le)).
    f_equal.
    apply (dict_lookup_item _ _ _ Hwf) in Hin1, Hin2. congruence.
  - apply Sorted_merge_sort, _.
  - apply Sorted_merge_sort, _.
  - by rewrite !merge_sort_Permutation.
Qed.
End DictFacts.

Lemma json_dumps_same (rt : Runtime) (d1 d2 : dict) :
  dict_wf d1 -> dict_wf d2 -> dict_same d1 d2 ->
  json_dumps_sorted d1 = json_dumps_sorted d2.
Proof.
  intros H1 H2 Hsame. unfold json_dumps_sorted.
  by rewrite (sorted_items_Permutation d1 d2)
    by auto using dict_same_Permutation.
Qed.

(** The hash of an int takes the same value at 0 and at the modulus. *)
Lemma hash_int_collision : hash_int 0 = hash_int (2 ^ 61 - 1).
Proof. reflexivity. Qed.

(** C7, as stated, fails in its second half: two fit datasets whose
    content hashes differ, 0 and [2^61 - 1], give the same fingerprint,
    whatever the adapter, the predict dataset, the string hash and the
    tuple hash, because the hash of a tuple sees its elements through
    their own hashes and [hash(0) == hash(2**61 - 1)]. *)
Lemma Model_hash_collision_counterexample :
  @Data_hash two_valued_hash empty_rows <> @Data_hash two_valued_hash example_rows /\
  @Model_hash example_runtime two_valued_hash extratrees_default empty_rows example_rows
  = @Model_hash example_runtime two_valued_hash extratrees_default example_rows example_rows /\
  ~ (forall (rt : Runtime) (dh : DataHash) (s1 s2 : instance)
            (dfit1 dpre1 dfit2 dpre2 : Data),
       class_name (cls s1) <> class_name (cls s2) \/
       ~ params_same (p s1) (p s2) \/
       Data_hash dfit1 <> Data_hash dfit2 \/
       Data_hash dpre1 <> Data_hash dpre2 ->
       Model_hash s1 dfit1 dpre1 <> Model_hash s2 dfit2 dpre2).
Proof.
  split; [discriminate|]. split; [reflexivity|].
  intros H.
  apply (H example_runtime two_valued_hash extratrees_default extratrees_default
           empty_rows example_rows example_rows example_rows).
  - right. right. left. discriminate.
  - reflexivity.
Qed.

(** The collision needs nothing of the runtime, the adapter or the
    predict dataset. *)
Lemma Model_hash_collision_any_runtime (rt : Runtime) (self : instance) (dpre : Data) :
  @Model_hash rt two_valued_hash self empty_rows dpre
  = @Model_hash rt two_valued_hash self example_rows dpre.
Proof.
  unfold Model_hash. py_unfold.
  destruct (p self) as [d|]; [destruct (json_dumps_sorted d)|]; reflexivity.
Qed.

(** C7, amended: two instances with the same class name, the same
    parameter mapping (whatever the order in which the dicts were filled)
    and dataset pairs with the same content hashes get the same result of
    [Model.hash], in one process.  (A change of one of the three is not
    promised to change the fingerprint: it is a hash.) *)
Theorem Model_hash_deterministic (rt : Runtime) (dh : DataHash)
      (s1 s2 : instance) (dfit1 dpre1 dfit2 dpre2 : Data) :
  class_name (cls s1) = class_name (cls s2) ->
  params_wf (p s1) -> params_wf (p s2) -> params_same (p s1) (p s2) ->
  Data_hash dfit1 = Data_hash dfit2 ->
  Data_hash dpre1 = Data_hash dpre2 ->
  Model_hash s1 dfit1 dpre1 = Model_hash s2 dfit2 dpre2.
Proof.
  intros Hname Hwf1 Hwf2 Hsame Hfit Hpre. unfold Model_hash.
  rewrite Hname, Hfit, Hpre.
  destruct (p s1) as [d1|], (p s2) as [d2|]; simpl in *; try done.
  by rewrite (json_dumps_same rt d1 d2).
Qed.

(** Two logisticPCA instances whose dicts were filled in different
    orders. *)
Lemma Model_hash_deterministic_witness :
  @Model_hash example_runtime example_data_hash
     (Instance_ logisticPCA
        (Some [("inverse_l2", PyFloat float_1e_4); ("nfeatures", PyInt 10)]))
     example_rows empty_rows
  = @Model_hash example_runtime example_data_hash
     (Instance_ logisticPCA
        (Some [("nfeatures", PyInt 10); ("inverse_l2", PyFloat float_1e_4)]))
     example_rows empty_rows.
Proof.
  apply (Model_hash_deterministic example_runtime example_data_hash).
  - reflexivity.
  - simpl. unfold dict_wf. simpl. apply NoDup_cons. split.
    + rewrite elem_of_cons, elem_of_nil. intros [?|[]]. discriminate.
    + apply NoDup_singleton.
  - simpl. unfold dict_wf. simpl. apply NoDup_cons. split.
    + rewrite elem_of_cons, elem_of_nil. intros [?|[]]. discriminate.
    + apply NoDup_singleton.
  - simpl. intros k. rewrite !dict_lookup_cons.
    destruct (String.eqb "inverse_l2" k) eqn:E1,
             (String.eqb "nfeatures" k) eqn:E2; try reflexivity.
    apply String.eqb_eq in E1, E2. congruence.
  - reflexivity.
  - reflexivity.
Defined.

(** * Further properties of [numerox/util.py] *)

Lemma getitem_names_in_range (t : Z) :
  1 <= t <= 5 -> is_ok (getitem TOURNAMENT_NAMES (t - 1)) = true.
Proof.
  intros H. apply id_in_range_cases in H.
  by destruct H as [-> | [-> | [-> | [-> | ->]]]].
Qed.

(** X1: the only errors of the two conversions are their own
    ValueErrors: below 1 the one that asks for more than 0, above 5 the
    one that asks for less than 6, and for a string the one that does not
    recognise the name; neither the list lookup nor [list.index] behind
    the guards ever raises. *)
Theorem conversion_errors_are_own (t : Z) (s : string) (e : exn) :
  (tournament_int2str t = Raise e ->
     (t < 1 /\ e = ValueError "`tournament_int` must be greater than 0") \/
     (5 < t /\ e = ValueError "`tournament_int` must be less than 6")) /\
  (tournament_str2int s = Raise e ->
     (s ∉ TOURNAMENT_NAMES) /\
     e = ValueError "`tournament_str` name not recognized").
Proof.
  split.
  - unfold tournament_int2str.
    destruct (t <? 1) eqn:E1.
    { intros [= <-]. left. split; [lia|done]. }
    destruct (t >? 5) eqn:E2.
    { intros [= <-]. right. split; [lia|done]. }
    intros H. assert (Hr : 1 <= t <= 5) by lia.
    apply getitem_names_in_range in Hr. by rewrite H in Hr.
  - unfold tournament_str2int.
    destruct (contains TOURNAMENT_NAMES s) eqn:Ec; cbn [negb].
    + apply contains_spec, index_is_ok in Ec. py_unfold.
      by destruct (index TOURNAMENT_NAMES s).
    + intros [= <-]. split; [|done].
      intros Hin. apply contains_spec in Hin. congruence.
Qed.

Lemma conversion_errors_are_own_witness :
  ((0 < 1 /\ ValueError "`tournament_int` must be greater than 0"
             = ValueError "`tournament_int` must be greater than 0") \/
   (5 < 0 /\ ValueError "`tournament_int` must be greater than 0"
             = ValueError "`tournament_int` must be less than 6")).
Proof.
  apply (conversion_errors_are_own 0 "ken"
           (ValueError "`tournament_int` must be greater than 0")).
  reflexivity.
Defined.

(** X2: the lower bounds check is not redundant: for the ids -4..0 the
    list lookup alone would return a name, Python counting a negative
    index from the end of the list, and [tournament_int2str] raises
    ValueError instead; above 5 the lookup alone would raise IndexError,
    which the upper check turns into ValueError. *)
Theorem tournament_int2str_guards (t : Z) :
  ((-4) <= t <= 0 ->
     is_ok (getitem TOURNAMENT_NAMES (t - 1)) = true /\
     is_ValueError (tournament_int2str t) = true) /\
  (5 < t ->
     is_IndexError (getitem TOURNAMENT_NAMES (t - 1)) = true /\
     is_ValueError (tournament_int2str t) = true).
Proof.
  split; intros H.
  - assert (Hc : t = -4 \/ t = -3 \/ t = -2 \/ t = -1 \/ t = 0) by lia.
    by destruct Hc as [-> | [-> | [-> | [-> | ->]]]].
  - split.
    + unfold getitem, TOURNAMENT_NAMES. cbn [length].
      change (Z.of_nat 5) with 5.
      rewrite (proj2 (Z.ltb_ge (t - 1) 0)) by lia.
      rewrite (proj2 (Z.ltb_ge (t - 1) 0)) by lia.
      by rewrite (proj2 (Z.leb_le 5 (t - 1))) by lia.
    + unfold tournament_int2str.
      destruct (t <? 1) eqn:E1; [done|].
      destruct (t >? 5) eqn:E2; [done|lia].
Qed.

Lemma tournament_int2str_guards_witness :
  (getitem TOURNAMENT_NAMES (0 - 1) = Ok "charles" /\
   is_ValueError (tournament_int2str 0) = true) /\
  (is_IndexError (getitem TOURNAMENT_NAMES (6 - 1)) = true /\
   is_ValueError (tournament_int2str 6) = true).
Proof.
  destruct (tournament_int2str_guards 0) as [H0 _].
  destruct (tournament_int2str_guards 6) as [_ H6].
  split.
  - split; [reflexivity|]. apply H0. lia.
  - apply H6. lia.
Defined.

(** X3: what the iteration yields agrees with both conversions: the names
    are those of [TOURNAMENT_NAMES], each once and in the order of the
    list, and every pair (id, name) converts into one another. *)
Theorem tournament_iter_agrees (k : nat) :
  exists l,
    consume (6 + k) tournament_iter = Some (Ok l, GenFinished) /\
    l.*2 = TOURNAMENT_NAMES /\
    NoDup (l.*2) /\
    Forall (fun it => tournament_int2str it.1 = Ok it.2 /\
                      tournament_str2int it.2 = Ok it.1) l.
Proof.
  exists tournament_pairs. split; [reflexivity|]. split; [reflexivity|].
  split.
  - apply (bool_decide_unpack _). by vm_compute.
  - repeat constructor.
Qed.

(** X4: the generator is lazy and advances one id at a time: with the
    loop at [t], in 1..5, [next] yields [(t, name of t)] and leaves the loop
    at [t + 1]; at 6 it stops; once exhausted it stays exhausted; and a
    generator that already gave its first [t - 1] pairs gives, iterated to
    the end, exactly the remaining ones. *)
Theorem tournament_iter_resumes (t : Z) (k : nat) :
  (1 <= t <= 5 ->
     exists name, tournament_int2str t = Ok name /\
       tournament_iter_next (GenRunning (range t 6))
       = Yield (t, name) (GenRunning (range (t + 1) 6))) /\
  (6 <= t -> tournament_iter_next (GenRunning (range t 6)) = StopIteration) /\
  tournament_iter_next GenFinished = StopIteration /\
  (1 <= t <= 6 ->
     consume (6 + k) (GenRunning (range t 6))
     = Some (Ok (drop (Z.to_nat (t - 1)) tournament_pairs), GenFinished)).
Proof.
  split; [|split; [|split; [reflexivity|]]].
  - intros H. apply id_in_range_cases in H.
    destruct H as [-> | [-> | [-> | [-> | ->]]]]; eexists; split; reflexivity.
  - intros H. unfold tournament_iter_next, range_next, range. simpl.
    destruct (t <? 6) eqn:E; [lia|done].
  - intros H.
    assert (Hc : t = 1 \/ t = 2 \/ t = 3 \/ t = 4 \/ t = 5 \/ t = 6) by lia.
    by destruct Hc as [-> | [-> | [-> | [-> | [-> | ->]]]]].
Qed.

Lemma tournament_iter_resumes_witness :
  (exists name, tournament_int2str 3 = Ok name /\
     tournament_iter_next (GenRunning (range 3 6))
     = Yield (3, name) (GenRunning (range (3 + 1) 6))) /\
  tournament_iter_next (GenRunning (range 7 6)) = StopIteration /\
  consume (6 + 0) (GenRunning (range 3 6))
  = Some (Ok [(3, "jordan"); (4, "ken"); (5, "charles")], GenFinished).
Proof.
  destruct (tournament_iter_resumes 3 0) as (H1 & _ & _ & H4).
  destruct (tournament_iter_resumes 7 0) as (_ & H2 & _).
  split; [apply H1; lia|]. split; [apply H2; lia|]. apply H4. lia.
Defined.


(** X6: the history table is a well-formed frame whose rows refer to the
    registry: every row has one value per column, every entry of the
    tournament column is the id of a registered tournament, and the
    rounds are ints in strictly increasing order. *)
Theorem history_well_formed :
  Forall (fun r => length r = length (frame_columns history)) (frame_data history) /\
  (exists ts, frame_column history "tournament" = Some ts /\
     Forall (fun v => exists t, as_int v = Some t /\
                        is_ok (tournament_int2str t) = true) ts) /\
  (exists rs ns, frame_column history "round" = Some rs /\
     mapM as_int rs = Some ns /\
     Sorted Z.lt ns).
Proof.
  split; [repeat constructor|]. split.
  - eexists. split; [reflexivity|].
    repeat constructor; by exists 1.
  - eexists _, _. split; [reflexivity|]. split; [reflexivity|].
    repeat constructor.
Qed.

(** * Further properties of [numerox/model.py] *)

Section MoreModel.
Context {rt : Runtime}.

Lemma mapM_json_item_basic (l : list (string * value)) :
  Forall (fun kv => json_basic kv.2 = true) l ->
  is_ok (mapM json_item l) = true.
Proof.
  induction 1 as [|[k v] l Hv _ IH]; [done|].
  change (mapM json_item ((k, v) :: l))
    with (y ← json_item (k, v); ys ← mapM json_item l; mret (y :: ys)).
  assert (Hk : is_ok (json_item (k, v)) = true).
  { unfold json_item. simpl in *. py_unfold.
    by destruct v as [n|[]|f|re im|s|s| |ty raw|c]. }
  py_unfold.
  destruct (json_item (k, v)); [|done].
  by destruct (mapM json_item l).
Qed.

Lemma json_dumps_basic (d : dict) :
  Forall (fun kv => json_basic kv.2 = true) d ->
  is_ok (json_dumps_sorted d) = true.
Proof.
  intros H. unfold json_dumps_sorted, sorted_items.
  assert (Hs : Forall (fun kv => json_basic kv.2 = true) (merge_sort key_le d))
    by (by rewrite merge_sort_Permutation).
  apply mapM_json_item_basic in Hs. py_unfold.
  by destruct (mapM json_item (merge_sort key_le d)).
Qed.

(** The loop and the slice of [__repr__] render the items of the dict in
    their order. *)
Lemma Model_repr_render (self : instance) :
  Model_repr self = repr_in_order self.
Proof.
  unfold Model_repr, repr_in_order, render.
  destruct (p self) as [d|]; [|done].
  destruct d as [|kv d]; [done|].
  change (length (kv :: d) =? 0)%nat with false. cbv iota.
  rewrite !str_app_nil_l, repr_loop, appended_join by done.
  rewrite <- !str_app_assoc.
  change ", " with (String "," (String " " "")) at 2.
  rewrite (str_slice_drops_suffix _ (String "," (String " " ""))).
  by rewrite !str_app_assoc.
Qed.
End MoreModel.

(** X7: [Model.hash] can fail in one way only, when the JSON encoder
    rejects a parameter value, and then with the encoder's exception; it
    returns a fingerprint for an instance without parameter dict, and for
    one whose parameter values are None, bools, ints, floats or strs. *)
Theorem Model_hash_raises_only_json (rt : Runtime) (dh : DataHash)
      (self : instance) (dfit dpre : Data) (e : exn) :
  (Model_hash self dfit dpre = Raise e <->
     exists d, p self = Some d /\ json_dumps_sorted d = Raise e) /\
  (p self = None -> is_ok (Model_hash self dfit dpre) = true) /\
  (forall d, p self = Some d ->
     Forall (fun kv => json_basic kv.2 = true) d ->
     is_ok (Model_hash self dfit dpre) = true).
Proof.
  unfold Model_hash. py_unfold. split; [|split].
  - destruct (p self) as [d|].
    + destruct (json_dumps_sorted d) as [js|e'] eqn:Ej; split.
      * discriminate.
      * intros (d' & [= <-] & Hd). congruence.
      * intros [= <-]. by exists d.
      * intros (d' & [= <-] & Hd). congruence.
    + split; [discriminate|]. by intros (d' & Hd & _).
  - by intros ->.
  - intros d -> Hd. apply json_dumps_basic in Hd.
    by destruct (json_dumps_sorted d).
Qed.

Lemma Model_hash_raises_only_json_witness :
  is_ok (@Model_hash example_runtime example_data_hash logisticPCA_default
           example_rows example_rows) = true.
Proof.
  destruct (Model_hash_raises_only_json example_runtime example_data_hash
              logisticPCA_default example_rows example_rows
              (TypeError "")) as (_ & _ & H).
  apply (H [("inverse_l2", PyFloat float_1e_4); ("nfeatures", PyInt 10)]).
  - reflexivity.
  - repeat constructor.
Defined.

Section SortedDicts.

#[local] Instance key_le_transitive : Transitive key_le.
Proof. intros a b c. unfold key_le. apply transitivity. Qed.

#[local] Instance key_le_is_total : Total key_le.
Proof. intros a b. unfold key_le. apply total, _. Qed.

(** Sorting leaves a dict filled in ascending key order as it is. *)
Lemma sorted_items_ascending (d : dict) :
  dict_wf d -> Sorted key_le d -> sorted_items d = d.
Proof.
  intros Hwf Hsorted. unfold sorted_items.
  apply (Sorted_unique_strong key_le); [|apply Sorted_merge_sort, _|done|].
  - intros [k1 v1] [k2 v2] Hin1 Hin2 Hle1 Hle2.
    rewrite merge_sort_Permutation in Hin1. unfold key_le in *. simpl in *.
    assert (k1 = k2) as <- by (by apply (anti_symm String.le)).
    f_equal. apply (dict_lookup_item _ _ _ Hwf) in Hin1, Hin2. congruence.
  - apply merge_sort_Permutation.
Qed.
End SortedDicts.

(** X8: when the parameter dict was filled in ascending key order,
    [__repr__] does print the assignments sorted by parameter name; so it
    does for the logistic and logisticPCA adapters and for [fifty]. *)
Theorem repr_sorted_when_ascending (rt : Runtime) (self : instance) (d : dict) :
  p self = Some d -> dict_wf d -> Sorted key_le d ->
  Model_repr self = repr_sorted self.
Proof.
  intros Hp Hwf Hs. rewrite Model_repr_render.
  unfold repr_in_order, repr_sorted. rewrite Hp.
  by rewrite sorted_items_ascending.
Qed.

Lemma repr_sorted_when_ascending_witness :
  @Model_repr example_runtime logisticPCA_default
  = @repr_sorted example_runtime logisticPCA_default.
Proof.
  apply (repr_sorted_when_ascending example_runtime logisticPCA_default
           [("inverse_l2", PyFloat float_1e_4); ("nfeatures", PyInt 10)]).
  - reflexivity.
  - apply (bool_decide_unpack _). by vm_compute.
  - repeat constructor.
Defined.

(** X9: what each adapter prints after construction, for any arguments:
    the class name and the parameters in the order of the dict literal of
    its constructor (for logisticPCA inverse_l2 before nfeatures, the
    reverse of the order of the arguments), without a trailing comma. *)
Theorem repr_of_constructed (rt : Runtime) (L : Libraries)
      (a b c d e : value) :
  (exists self, logistic_init a = Ok self /\
     Model_repr self = "logistic(inverse_l2=" +:+ str a +:+ ")") /\
  (exists self, extratrees_init a b c d = Ok self /\
     Model_repr self
     = "extratrees(ntrees=" +:+ str a +:+ ", depth=" +:+ str b
       +:+ ", nfeatures=" +:+ str c +:+ ", seed=" +:+ str d +:+ ")") /\
  (exists self, randomforest_init a b c d = Ok self /\
     Model_repr self
     = "randomforest(ntrees=" +:+ str a +:+ ", depth=" +:+ str b
       +:+ ", max_features=" +:+ str c +:+ ", seed=" +:+ str d +:+ ")") /\
  (exists self, logisticPCA_init a b = Ok self /\
     Model_repr self
     = "logisticPCA(inverse_l2=" +:+ str b +:+ ", nfeatures=" +:+ str a +:+ ")") /\
  (exists self, fifty_init = Ok self /\ Model_repr self = "fifty()") /\
  (forall self, xgboost_init a b c d e = Ok self ->
     Model_repr self
     = "xgboost(learning_rate=" +:+ str a +:+ ", subsample=" +:+ str b
       +:+ ", max_depth=" +:+ str c +:+ ", n_estimators=" +:+ str d
       +:+ ", seed=" +:+ str e +:+ ")").
Proof.
  split; [|split; [|split; [|split; [|split]]]].
  1-5: eexists; split; [reflexivity|].
  1-5: rewrite Model_repr_render; unfold repr_in_order, render, render_item;
       cbn [p cls class_name fmap list_fmap str_join fst snd];
       rewrite ?str_app_assoc; reflexivity.
  intros self. unfold xgboost_init. destruct HAS_XGBOOST; [|discriminate].
  intros [= <-].
  rewrite Model_repr_render; unfold repr_in_order, render, render_item;
    cbn [p cls class_name fmap list_fmap str_join fst snd negb];
    rewrite ?str_app_assoc; reflexivity.
Qed.

Lemma repr_of_constructed_witness :
  @Model_repr example_runtime
     (Instance_ xgboost
        (Some [("learning_rate", PyInt 1); ("subsample", PyInt 1);
               ("max_depth", PyInt 5); ("n_estimators", PyInt 5);
               ("seed", PyInt 0)]))
  = "xgboost(learning_rate=1, subsample=1, max_depth=5, n_estimators=5, seed=0)".
Proof.
  destruct (repr_of_constructed example_runtime (example_libraries true)
              (PyInt 1) (PyInt 1) (PyInt 5) (PyInt 5) (PyInt 0))
    as (_ & _ & _ & _ & _ & H).
  apply H. reflexivity.
Defined.

(** X10: an adapter used as constructed never fails on its parameters:
    [fit_predict] goes straight to the estimator, built with the
    parameters where the source passes them (for the tree ensembles
    nfeatures or max_features as max_features, depth as max_depth, ntrees
    as n_estimators, seed as random_state, the gini criterion and
    n_jobs=-1), and its outcome is the one of fitting and scoring with
    that estimator. *)
Theorem fit_predict_of_constructed (L : Libraries) (a b c d e : value)
      (dfit dpre : Data) :
  (self ← logistic_init a; fit_predict self dfit dpre)
  = fit_then_predict (LogisticRegression a) dfit dpre /\
  (self ← extratrees_init a b c d; fit_predict self dfit dpre)
  = fit_then_predict (ETC "gini" c b a d (PyInt (-1))) dfit dpre /\
  (self ← randomforest_init a b c d; fit_predict self dfit dpre)
  = fit_then_predict (RFC "gini" c b a d (PyInt (-1))) dfit dpre /\
  (self ← logisticPCA_init a b; fit_predict self dfit dpre)
  = fit_then_predict (Pipeline "pca" (PCA a) "lr" (LogisticRegression b)) dfit dpre /\
  xgboost_construct_then_fit_predict a b c d e dfit dpre
  = (if HAS_XGBOOST
     then fit_then_predict (XGBClassifier a b c d e (PyInt (-1))) dfit dpre
     else Raise (ImportError "You must install xgboost to use this model")).
Proof.
  repeat split; try reflexivity.
  unfold xgboost_construct_then_fit_predict, xgboost_init, fit_predict,
    xgboost_fit_predict.
  by destruct HAS_XGBOOST.
Qed.

Lemma dict_getitem_missing (d : dict) (k : string) :
  dict_lookup d k = None -> dict_getitem d k = Raise (KeyError k).
Proof.
  unfold dict_lookup. induction d as [|[k' v] d IH]; [done|]. simpl.
  by destruct (String.eqb k' k).
Qed.

Lemma dict_getitem_present (d : dict) (k : string) :
  is_Some (dict_lookup d k) -> exists v, dict_getitem d k = Ok v.
Proof.
  unfold dict_lookup. intros [v Hv].
  destruct (dict_getitem d k) as [v'|]; [by exists v'|done].
Qed.

(** Reads [keys_read c = pre ++ k :: post] as: which key is [k], and which
    keys come before it. *)
Ltac split_keys Hkeys Hpre :=
  repeat match type of Hkeys with
         | _ = ?pre ++ _ :: _ =>
             destruct pre as [|? pre]; simpl in Hkeys;
             [ injection Hkeys as <- <- ||  injection Hkeys as <-
             | try discriminate Hkeys;
               let Hhd := fresh "Hhd" in
               apply Forall_cons in Hpre as [Hhd Hpre];
               apply dict_getitem_present in Hhd as [? Hhd];
               injection Hkeys as <- Hkeys ]
         | _ = [] ++ _ => idtac
         end.

(** X11: a parameter missing from [self.p] is reported before any
    estimator is built: [fit_predict] raises KeyError for the first key,
    in the order in which the method reads them, that the dict lacks,
    whatever the libraries and the data; and an estimator-backed adapter
    without [p] raises AttributeError. *)
Theorem fit_predict_missing_parameter (L : Libraries) (self : instance)
      (dfit dpre : Data) :
  (cls self = xgboost -> HAS_XGBOOST = true) ->
  (forall d pre k post,
     p self = Some d ->
     keys_read (cls self) = pre ++ k :: post ->
     Forall (fun k' => is_Some (dict_lookup d k')) pre ->
     dict_lookup d k = None ->
     fit_predict self dfit dpre = Raise (KeyError k)) /\
  (p self = None -> keys_read (cls self) <> [] ->
     is_AttributeError (fit_predict self dfit dpre) = true).
Proof.
  intros Hx. split.
  - intros d pre k post Hp Hkeys Hpre Hk.
    apply dict_getitem_missing in Hk.
    unfold fit_predict, logistic_fit_predict, extratrees_fit_predict,
      randomforest_fit_predict, xgboost_fit_predict, logisticPCA_fit_predict,
      attr_p.
    rewrite Hp. py_unfold.
    destruct (cls self) eqn:Hc; simpl in Hkeys;
      try (by destruct pre);
      try (rewrite Hx by done; cbn [negb]);
      split_keys Hkeys Hpre;
      repeat match goal with
             | H : dict_getitem d _ = _ |- _ => rewrite H; clear H
             end;
      try reflexivity; try (by destruct pre).
  - intros Hp Hkeys.
    unfold fit_predict, logistic_fit_predict, extratrees_fit_predict,
      randomforest_fit_predict, xgboost_fit_predict, logisticPCA_fit_predict,
      attr_p.
    rewrite Hp. py_unfold.
    destruct (cls self) eqn:Hc; simpl in Hkeys; try done.
    by rewrite Hx.
Qed.

Lemma fit_predict_missing_parameter_witness :
  @fit_predict (example_libraries true)
     (Instance_ extratrees (Some [("nfeatures", PyInt 7); ("ntrees", PyInt 100)]))
     example_rows example_rows
  = Raise (KeyError "depth").
Proof.
  destruct (fit_predict_missing_parameter (example_libraries true)
              (Instance_ extratrees (Some [("nfeatures", PyInt 7); ("ntrees", PyInt 100)]))
              example_rows example_rows) as [H _].
  - discriminate.
  - apply (H [("nfeatures", PyInt 7); ("ntrees", PyInt 100)]
             ["nfeatures"] "depth" ["ntrees"; "seed"]).
    + reflexivity.
    + reflexivity.
    + repeat constructor. by eexists.
    + reflexivity.
Defined.

Lemma np_column_short_row (a : matrix) (j : nat) :
  Exists (fun r => (length r <= j)%nat) a -> is_IndexError (np_column a j) = true.
Proof.
  induction a as [|r a IH]; intros H; [by apply Exists_nil in H|].
  simpl. destruct (r !! j) as [v|] eqn:Er; [|done].
  apply Exists_cons in H as [H|H].
  - apply lookup_ge_None_2 in H. congruence.
  - specialize (IH H). py_unfold. by destruct (np_column a j) as [|[]].
Qed.

(** X12: the estimator-backed adapters translate no error: an exception
    raised by [fit] comes out of [fit_predict] as it is, and
    [predict_proba] is not reached; one raised by [predict_proba] comes
    out as it is; and a score matrix with a single column (or none) makes
    the selection of the second column raise IndexError. *)
Theorem fit_then_predict_errors (L : Libraries) (clf : estimator)
      (dfit dpre : Data) :
  (forall e, est_fit clf (Data_x dfit) (Data_y dfit) = Raise e ->
     fit_then_predict clf dfit dpre = Raise e) /\
  (forall m e, est_fit clf (Data_x dfit) (Data_y dfit) = Ok m ->
     est_predict_proba m (Data_x dpre) = Raise e ->
     fit_then_predict clf dfit dpre = Raise e) /\
  (forall m proba, est_fit clf (Data_x dfit) (Data_y dfit) = Ok m ->
     est_predict_proba m (Data_x dpre) = Ok proba ->
     Exists (fun scores => (length scores <= 1)%nat) proba ->
     is_IndexError (fit_then_predict clf dfit dpre) = true).
Proof.
  unfold fit_then_predict. py_unfold. split; [|split].
  - by intros e ->.
  - by intros m e -> ->.
  - intros m proba -> -> H. apply np_column_short_row in H.
    by destruct (np_column proba 1) as [|[]].
Qed.

Lemma fit_then_predict_errors_witness :
  @fit_then_predict (failing_libraries (ValueError "bad input"))
     (LogisticRegression (PyInt 1)) example_rows example_rows
  = Raise (ValueError "bad input") /\
  is_IndexError (@fit_then_predict one_class_libraries
                   (LogisticRegression (PyInt 1)) example_rows example_rows) = true.
Proof.
  split.
  - apply (fit_then_predict_errors (failing_libraries (ValueError "bad input"))).
    reflexivity.
  - destruct (fit_then_predict_errors one_class_libraries
                (LogisticRegression (PyInt 1)) example_rows example_rows)
      as (_ & _ & H).
    apply (H tt [[float_one]; [float_one]; [float_one]]).
    + reflexivity.
    + reflexivity.
    + apply Exists_cons_hd. simpl. lia.
Defined.

(** X13: [fit_predict] reads the features and the labels of the fit
    dataset and the features and the ids of the predict dataset, nothing
    else: the labels of the predict dataset and the ids of the fit dataset
    never reach the result, for any adapter. *)
Theorem fit_predict_reads (L : Libraries) (self : instance)
      (dfit dfit' dpre dpre' : Data) :
  Data_x dfit = Data_x dfit' -> Data_y dfit = Data_y dfit' ->
  Data_x dpre = Data_x dpre' -> Data_ids dpre = Data_ids dpre' ->
  fit_predict self dfit dpre = fit_predict self dfit' dpre'.
Proof.
  intros Hx Hy Hpx Hpi.
  assert (Hlen : Data_len dpre = Data_len dpre').
  { destruct (Data_views_length dpre) as [<- _].
    destruct (Data_views_length dpre') as [<- _]. by rewrite Hpi. }
  unfold fit_predict, logistic_fit_predict, extratrees_fit_predict,
    randomforest_fit_predict, xgboost_fit_predict, logisticPCA_fit_predict,
    fifty_fit_predict, fit_then_predict.
  by rewrite Hx, Hy, Hpx, Hpi, Hlen.
Qed.

Lemma fit_predict_reads_witness :
  @fit_predict (example_libraries true) logisticPCA_default
     example_rows example_rows
  = @fit_predict (example_libraries true) logisticPCA_default
     example_rows_renamed example_rows_unlabelled.
Proof.
  apply (fit_predict_reads (example_libraries true)); reflexivity.
Defined.

(** X14: the predictions of an estimator-backed adapter are the second
    column of the score matrix that [predict_proba] returns for the
    features of the predict dataset, after a fit on the features and the
    labels of the fit dataset: prediction [i] is entry 1 of score row
    [i]. *)
Theorem fit_predict_scores (L : Libraries) (self : instance)
      (dfit dpre : Data) (ids : list string) (yhat : list float) :
  cls self <> fifty ->
  fit_predict self dfit dpre = Ok (ids, yhat) ->
  exists clf m proba,
    est_fit clf (Data_x dfit) (Data_y dfit) = Ok m /\
    est_predict_proba m (Data_x dpre) = Ok proba /\
    forall i scores, proba !! i = Some scores -> yhat !! i = scores !! 1%nat.
Proof.
  intros Hc H. unfold fit_predict in H.
  destruct (cls self); [discriminate| | | | | |done].
  - unfold logistic_fit_predict, attr_p in H. peel_lookups H.
    eexists. by eapply fit_then_predict_scores.
  - unfold extratrees_fit_predict, attr_p in H. peel_lookups H.
    eexists. by eapply fit_then_predict_scores.
  - unfold randomforest_fit_predict, attr_p in H. peel_lookups H.
    eexists. by eapply fit_then_predict_scores.
  - unfold xgboost_fit_predict, attr_p in H.
    destruct (negb HAS_XGBOOST); [discriminate|]. peel_lookups H.
    eexists. by eapply fit_then_predict_scores.
  - unfold logisticPCA_fit_predict, attr_p in H. peel_lookups H.
    eexists. by eapply fit_then_predict_scores.
Qed.

Lemma fit_predict_scores_witness :
  exists clf m proba,
    @est_fit (example_libraries true) clf
       (Data_x example_rows) (Data_y example_rows) = Ok m /\
    @est_predict_proba (example_libraries true) m (Data_x example_rows) = Ok proba /\
    forall i scores, proba !! i = Some scores ->
      [float_half; float_half; float_half] !! i = scores !! 1%nat.
Proof.
  apply (fit_predict_scores (example_libraries true) logisticPCA_default
           example_rows example_rows ["n1"; "n2"; "n3"]).
  - discriminate.
  - reflexivity.
Defined.
